(** * Relay service: the Express handlers of the sign-language backend

    A shallow embedding of the request handlers of the relay
    ([POST /api/completion] in its two versions and [POST /api/tts]).

    The handlers are JavaScript [async] functions that mutate the Express
    response object, call vendor SDKs and use [try]/[catch].  They are
    embedded in a state-and-exception monad over a [world] that holds the
    response object and the trace of every effect, in program order.  The
    vendor SDKs are not part of the repository: what they answer is a
    parameter of the handlers (record [providers]). *)

From Stdlib Require Import String List Bool ZArith QArith Lia.
Import ListNotations.
Local Open Scope nat_scope.
Local Open Scope string_scope.
Local Open Scope list_scope.
Set Warnings "-register-all".

(** ** JavaScript values that cross the handlers *)

(** A parsed JSON value, as [express.json()] leaves it in [req.body]. *)
Inductive json : Type :=
| JNull
| JBool (b : bool)
| JNum (q : Q)
| JStr (s : string)
| JArr (l : list json)
| JObj (fields : list (string * json)).

(** ToBoolean of a JSON value: [null], [false], [0] and [""] are falsy,
    every array and object is truthy. *)
Definition truthy (v : json) : bool :=
  match v with
  | JNull => false
  | JBool b => b
  | JNum q => negb (Qeq_bool q 0)
  | JStr s => negb (String.eqb s "")
  | JArr _ => true
  | JObj _ => true
  end.

(** A property read off [req.body]: [None] is [undefined] (absent key). *)
Definition truthy_opt (v : option json) : bool :=
  match v with
  | None => false
  | Some x => truthy x
  end.

(** Destructuring with a default, [const { k = d } = obj]: the default
    applies to [undefined] only, so a supplied [null] is kept. *)
Definition with_default (v : option json) (d : json) : json :=
  match v with
  | None => d
  | Some x => x
  end.

(** What a [throw] or a promise rejection carries: an [Error] object
    (only its [message] is read) or any other value. *)
Inductive thrown : Type :=
| ErrorObj (message : string)
| NonError (v : json).

(** [error instanceof Error ? error.message : "Unknown error"] *)
Definition details_of (error : thrown) : json :=
  match error with
  | ErrorObj message => JStr message
  | NonError _ => JStr "Unknown error"
  end.

(** The [TypeError] of reading property [prop] of [undefined]. *)
Definition type_error (prop : string) : thrown :=
  ErrorObj ("Cannot read properties of undefined (reading '" ++ prop ++ "')").

(** The text handed to the image model, [textResponse || ""]. *)
Definition or_empty (content : option string) : string :=
  match content with
  | None => ""
  | Some s => s
  end.

(** [content] of a chat message is [string | null]. *)
Definition json_of_content (content : option string) : json :=
  match content with
  | None => JNull
  | Some s => JStr s
  end.

(** ** Vendor SDK results, as the handlers read them *)

(** [completion.choices[i].message.content] *)
Record choice : Type := mkChoice { content : option string }.

(** [completion.choices] and [completion.usage]; the usage metrics are
    passed through unread. *)
Record completion : Type := mkCompletion {
  choices : list choice;
  usage : json
}.

(** [imageResponse.data[i].url] *)
Record image : Type := mkImage { url : string }.

Record image_response : Type := mkImageResponse { data : list image }.

(** The argument of [openai.images.generate]. *)
Record image_params : Type := mkImageParams {
  img_model : string;
  prompt : string;
  n : nat;
  size : string
}.

(** An awaited SDK promise either fulfils or rejects. *)
Inductive outcome (A : Type) : Type :=
| Fulfils (a : A)
| Rejects (e : thrown).
Arguments Fulfils {A} a.
Arguments Rejects {A} e.

(** [speechConfig], of which the handler sets the voice name only. *)
Record speech_config : Type := mkSpeechConfig {
  speechSynthesisVoiceName : json
}.

(** [result.audioData]: [None] when the result carries no audio. *)
Record synthesis_result : Type := mkSynthesisResult {
  audioData : option (list Byte.byte)
}.

(** What [synthesizer.speakTextAsync(text, cb, err)] does: it throws at
    once, or later calls [cb] with a result (possibly [undefined]), or
    later calls [err] with an error, or never calls back. *)
Inductive speak_outcome : Type :=
| SpeakThrows (e : thrown)
| CallsBack (result : option synthesis_result)
| CallsError (error : thrown)
| NeverCallsBack.

(** The vendor SDKs as the handlers see them. *)
Record providers : Type := mkProviders {
  chat_create : option json -> string -> outcome completion;
  images_generate : image_params -> outcome image_response;
  fromSubscription : option thrown;             (* [Some e]: throws [e] *)
  newSpeechSynthesizer : speech_config -> option thrown;
  speakTextAsync : speech_config -> option json -> speak_outcome
}.

(** ** The Express response and the trace of effects *)

Inductive payload : Type :=
| Json (fields : list (string * json))
| Bytes (buf : list Byte.byte).

(** [res]: status code (200 until [res.status]), headers put by [res.set],
    what was sent as body, [res.headersSent] and whether it was ended. *)
Record response : Type := mkResponse {
  statusCode : nat;
  headers : list (string * string);
  body : list payload;
  headersSent : bool;
  finished : bool
}.

Definition fresh_response : response :=
  mkResponse 200 [] [] false false.

(** Every effect of a handler, in program order. *)
Inductive event : Type :=
| ChatCreate (messages : option json) (model : string)
| ImagesGenerate (params : image_params)
| FromSubscription
| NewSpeechSynthesizer (speechConfig : speech_config)
| SpeakTextAsync (speechConfig : speech_config) (text : option json)
| SynthesizerClose
| ConsoleError (label : string)
| ResStatus (code : nat)
| ResSet (hs : list (string * string))
| ResJson (fields : list (string * json))
| ResWrite (buf : list Byte.byte)
| ResEnd.

Record world : Type := mkWorld {
  res : response;
  trace : list event
}.

Definition initial : world := mkWorld fresh_response [].

Definition emit (e : event) (w : world) : world :=
  mkWorld (res w) (trace w ++ [e]).

Definition update_res (f : response -> response) (w : world) : world :=
  mkWorld (f (res w)) (trace w).

(** ** The monad of handler bodies: state and exceptions *)

Definition M (A : Type) : Type := world -> (thrown + A) * world.

Definition ret {A} (a : A) : M A := fun w => (inr a, w).

Definition bind {A B} (m : M A) (k : A -> M B) : M B :=
  fun w =>
    match m w with
    | (inl e, w') => (inl e, w')
    | (inr a, w') => k a w'
    end.

Definition throw {A} (e : thrown) : M A := fun w => (inl e, w).

(** [try { body } catch (error) { handler }] *)
Definition try_catch {A} (body : M A) (handler : thrown -> M A) : M A :=
  fun w =>
    match body w with
    | (inl e, w') => handler e w'
    | (inr a, w') => (inr a, w')
    end.

Definition effect (e : event) (f : response -> response) : M unit :=
  fun w => (inr tt, emit e (update_res f w)).

Notation "x <- m ;; k" := (bind m (fun x => k))
  (at level 61, m at next level, right associativity).
Notation "m ;; k" := (bind m (fun _ => k))
  (at level 61, right associativity).

(** [await p] for an SDK promise. *)
Definition await {A} (o : outcome A) : M A :=
  match o with
  | Fulfils a => ret a
  | Rejects e => throw e
  end.

(** [xs[0].prop]: a [TypeError] when [xs] is empty. *)
Definition first_then {A} (xs : list A) (prop : string) : M A :=
  match xs with
  | [] => throw (type_error prop)
  | x :: _ => ret x
  end.

(** *** Operations on [res] and on the console *)

Definition res_status (code : nat) : M unit :=
  effect (ResStatus code)
    (fun r => mkResponse code (headers r) (body r) (headersSent r) (finished r)).

Definition set_header (k v : string) (hs : list (string * string))
  : list (string * string) :=
  filter (fun kv => negb (String.eqb (fst kv) k)) hs ++ [(k, v)].

Definition res_set (hs : list (string * string)) : M unit :=
  effect (ResSet hs)
    (fun r => mkResponse (statusCode r)
                (fold_left (fun acc kv => set_header (fst kv) (snd kv) acc) hs (headers r))
                (body r) (headersSent r) (finished r)).

(** [res.json(obj)] sends the object and ends the response. *)
Definition res_json (fields : list (string * json)) : M unit :=
  effect (ResJson fields)
    (fun r => mkResponse (statusCode r) (headers r) (body r ++ [Json fields]) true true).

(** [res.write(buf)] flushes the headers and sends the bytes. *)
Definition res_write (buf : list Byte.byte) : M unit :=
  effect (ResWrite buf)
    (fun r => mkResponse (statusCode r) (headers r) (body r ++ [Bytes buf]) true (finished r)).

Definition res_end : M unit :=
  effect ResEnd
    (fun r => mkResponse (statusCode r) (headers r) (body r) true true).

Definition res_headersSent : M bool :=
  fun w => (inr (headersSent (res w)), w).

Definition console_error (label : string) : M unit :=
  effect (ConsoleError label) (fun r => r).

(** *** Calls into the SDKs *)

Definition openai_chat_completions_create (P : providers)
    (messages : option json) (model : string) : M completion :=
  effect (ChatCreate messages model) (fun r => r) ;;
  await (chat_create P messages model).

Definition openai_images_generate (P : providers) (params : image_params)
  : M image_response :=
  effect (ImagesGenerate params) (fun r => r) ;;
  await (images_generate P params).

(** ** [POST /api/completion] *)

(** [req.body] of the completion route. *)
Record completion_request : Type := mkCompletionRequest {
  messages : option json;
  generateImage : option json
}.

(** The 500 envelope of both routes' [catch] blocks. *)
Definition error_envelope (error : thrown) : list (string * json) :=
  [("error", JStr "Error processing your request");
   ("details", details_of error)].

(** The first version of the route (src/index.ts). *)
Module Legacy.

Definition post_api_completion (P : providers) (req : completion_request)
  : M unit :=
  try_catch
    (completion <- openai_chat_completions_create P (messages req) "gpt-3.5-turbo" ;;
     c0 <- first_then (choices completion) "message" ;;
     res_json [("message", json_of_content (content c0));
               ("usage", usage completion)])
    (fun error =>
       console_error "OpenAI API Error:" ;;
       res_status 500 ;;
       res_json (error_envelope error)).

End Legacy.

(** The route with image generation. *)
Definition post_api_completion (P : providers) (req : completion_request)
  : M unit :=
  try_catch
    (let generateImage := with_default (generateImage req) (JBool false) in
     completion <- openai_chat_completions_create P (messages req) "gpt-3.5-turbo" ;;
     c0 <- first_then (choices completion) "message" ;;
     let textResponse := content c0 in
     if truthy generateImage then
       try_catch
         (imageResponse <- openai_images_generate P
                             (mkImageParams "dall-e-3" (or_empty textResponse) 1 "1024x1024") ;;
          i0 <- first_then (data imageResponse) "url" ;;
          res_json [("message", json_of_content textResponse);
                    ("image", JStr (url i0));
                    ("usage", usage completion)])
         (fun imageError =>
            console_error "Image generation error:" ;;
            res_json [("message", json_of_content textResponse);
                      ("error", JStr "Image generation failed");
                      ("usage", usage completion)])
     else
       res_json [("message", json_of_content textResponse);
                 ("usage", usage completion)])
    (fun error =>
       console_error "OpenAI API Error:" ;;
       res_status 500 ;;
       res_json (error_envelope error)).

(** ** [POST /api/tts] *)

(** [req.body] of the speech route. *)
Record tts_request : Type := mkTtsRequest {
  text : option json;
  voice : option json
}.

Inductive promise_state : Type :=
| Pending
| Resolved
| Rejected (reason : thrown).

(** [sdk.SpeechConfig.fromSubscription(key, region)] *)
Definition sdk_fromSubscription (P : providers) : M unit :=
  effect FromSubscription (fun r => r) ;;
  match fromSubscription P with
  | Some e => throw e
  | None => ret tt
  end.

(** [new sdk.SpeechSynthesizer(speechConfig)] *)
Definition sdk_newSpeechSynthesizer (P : providers) (speechConfig : speech_config)
  : M unit :=
  effect (NewSpeechSynthesizer speechConfig) (fun r => r) ;;
  match newSpeechSynthesizer P speechConfig with
  | Some e => throw e
  | None => ret tt
  end.

(** The call [synthesizer.speakTextAsync(text, cb, err)] itself: it
    registers the callbacks and returns, unless it throws. *)
Definition synthesizer_speakTextAsync (P : providers)
    (speechConfig : speech_config) (text : option json) : M unit :=
  effect (SpeakTextAsync speechConfig text) (fun r => r) ;;
  match speakTextAsync P speechConfig text with
  | SpeakThrows e => throw e
  | _ => ret tt
  end.

Definition synthesizer_close : M unit :=
  effect SynthesizerClose (fun r => r).

(** [new Promise(executor)]: the executor runs at once; an exception in
    it rejects the promise and goes no further. *)
Definition new_promise (executor : M unit) : M promise_state :=
  fun w =>
    match executor w with
    | (inl e, w') => (inr (Rejected e), w')
    | (inr _, w') => (inr Pending, w')
    end.

(** [result && result.audioData]: an [ArrayBuffer] is truthy whatever
    its length. *)
Definition audio_of (result : option synthesis_result) : option (list Byte.byte) :=
  match result with
  | None => None
  | Some r => audioData r
  end.

(** The success callback handed to [speakTextAsync]; its value is what
    it makes of the promise ([resolve()] or [reject(...)]). *)
Definition on_result (result : option synthesis_result) : M promise_state :=
  match audio_of result with
  | Some buf =>
      res_write buf ;;
      res_end ;;
      synthesizer_close ;;
      ret Resolved
  | None => ret (Rejected (ErrorObj "No audio data generated"))
  end.

(** The error callback handed to [speakTextAsync]. *)
Definition on_error (error : thrown) : M promise_state :=
  console_error "Speech synthesis error:" ;;
  ret (Rejected error).

(** What the body of the [async] handler hands back: a plain value (the
    promise of the handler resolves) or the promise built around
    [speakTextAsync], which the handler's own promise then follows. *)
Inductive returned : Type :=
| Value
| Promise (speechConfig : speech_config) (text : option json) (state : promise_state).

(** The body of the handler up to its [return]: the whole [try]/[catch].
    The promise is returned as it is, it is not awaited inside [try]. *)
Definition post_api_tts_body (P : providers) (req : tts_request) : M returned :=
  try_catch
    (let text := text req in
     let voice := with_default (voice req) (JStr "en-US-JennyMultilingualNeural") in
     if negb (truthy_opt text) then
       res_status 400 ;;
       res_json [("error", JStr "Text is required")] ;;
       ret Value
     else
       sdk_fromSubscription P ;;
       let speechConfig := mkSpeechConfig voice in
       res_set [("Content-Type", "audio/wav"); ("Transfer-Encoding", "chunked")] ;;
       sdk_newSpeechSynthesizer P speechConfig ;;
       p <- new_promise (synthesizer_speakTextAsync P speechConfig text) ;;
       ret (Promise speechConfig text p))
    (fun error =>
       console_error "TTS Error:" ;;
       sent <- res_headersSent ;;
       (if negb sent then
          res_status 500 ;;
          res_json (error_envelope error)
        else ret tt) ;;
       ret Value).

(** A later turn of the event loop: the SDK calls one of the two
    callbacks, outside the handler's [try]. *)
Definition callbacks (P : providers) (speechConfig : speech_config)
    (text : option json) : M promise_state :=
  match speakTextAsync P speechConfig text with
  | CallsBack result => on_result result
  | CallsError error => on_error error
  | NeverCallsBack => ret Pending
  | SpeakThrows e => ret (Rejected e)
  end.

(** The whole request: the final state of the promise of the [async]
    handler, and the final world.  A [Rejected] state is a rejection
    nothing in the handler has caught. *)
Definition post_api_tts (P : providers) (req : tts_request)
  : world -> promise_state * world :=
  fun w =>
    match post_api_tts_body P req w with
    | (inl e, w') => (Rejected e, w')
    | (inr Value, w') => (Resolved, w')
    | (inr (Promise speechConfig text Pending), w') =>
        match callbacks P speechConfig text w' with
        | (inr state, w'') => (state, w'')
        | (inl _, w'') => (Pending, w'')   (* no operation of a callback throws *)
        end
    | (inr (Promise _ _ state), w') => (state, w')
    end.

(** ** What is read off a finished request *)

Definition is_image_call (e : event) : bool :=
  match e with
  | ImagesGenerate _ => true
  | _ => false
  end.

Definition is_speech_call (e : event) : bool :=
  match e with
  | FromSubscription | NewSpeechSynthesizer _ | SpeakTextAsync _ _ | SynthesizerClose => true
  | _ => false
  end.

Definition is_session (e : event) : bool :=
  match e with
  | NewSpeechSynthesizer _ => true
  | _ => false
  end.

Definition is_close (e : event) : bool :=
  match e with
  | SynthesizerClose => true
  | _ => false
  end.

Definition count (p : event -> bool) (w : world) : nat :=
  length (filter p (trace w)).

(** Reading a field of the JSON object a response carries. *)
Fixpoint field (k : string) (fields : list (string * json)) : option json :=
  match fields with
  | [] => None
  | (k', v) :: rest => if String.eqb k' k then Some v else field k rest
  end.

Fixpoint header (k : string) (hs : list (string * string)) : option string :=
  match hs with
  | [] => None
  | (k', v) :: rest => if String.eqb k' k then Some v else header k rest
  end.

(** The response as the middleware chain hands it to a route: status
    200, nothing sent.  Headers may already be set (the CORS ones). *)
Definition incoming (w : world) : Prop :=
  statusCode (res w) = 200 /\ body (res w) = [] /\
  headersSent (res w) = false /\ finished (res w) = false.

(** The world a request leaves behind. *)
Definition after_completion (P : providers) (req : completion_request) (w : world) : world :=
  snd (post_api_completion P req w).

Definition after_tts (P : providers) (req : tts_request) (w : world) : world :=
  snd (post_api_tts P req w).

(** *** Worlds the routes end in *)

(** A response that was answered with one JSON object, after the effects
    [evs]. *)
Definition answered (code : nat) (fields : list (string * json))
    (evs : list event) (w : world) : world :=
  mkWorld
    (mkResponse code (headers (res w)) (body (res w) ++ [Json fields]) true true)
    (trace w ++ evs).

(** The argument of the image call for the first choice [c0]. *)
Definition image_request (c0 : choice) : image_params :=
  mkImageParams "dall-e-3" (or_empty (content c0)) 1 "1024x1024".

(** The session configuration the speech route builds for a request. *)
Definition session_config (req : tts_request) : speech_config :=
  mkSpeechConfig (with_default (voice req) (JStr "en-US-JennyMultilingualNeural")).

(** [res] after [res.set] of the two audio headers. *)
Definition audio_headers (r : response) : response :=
  mkResponse (statusCode r)
    (set_header "Transfer-Encoding" "chunked"
       (set_header "Content-Type" "audio/wav" (headers r)))
    (body r) (headersSent r) (finished r).

(** The effects of the speech route up to the registration of the
    callbacks. *)
Definition session_events (req : tts_request) : list event :=
  [FromSubscription;
   ResSet [("Content-Type", "audio/wav"); ("Transfer-Encoding", "chunked")];
   NewSpeechSynthesizer (session_config req);
   SpeakTextAsync (session_config req) (text req)].

(** The world in which the callbacks are awaited: headers put, nothing
    sent. *)
Definition awaiting (req : tts_request) (w : world) : world :=
  mkWorld (audio_headers (res w)) (trace w ++ session_events req).

(** The world after the audio was written and the session closed. *)
Definition streamed (req : tts_request) (buf : list Byte.byte) (w : world) : world :=
  mkWorld
    (mkResponse (statusCode (res w)) (headers (audio_headers (res w)))
       (body (res w) ++ [Bytes buf]) true true)
    (trace w ++ session_events req ++ [ResWrite buf; ResEnd; SynthesizerClose]).

(** ** The rest of the application *)

(** [GET /], the same handler in both files. *)
Definition get_root : M unit :=
  res_json [("message", JStr "Hello from Express + TypeScript!")].

(** How a middleware leaves: it calls [next()] or it has answered. *)
Inductive handoff : Type :=
| Next
| Answered.

(** The middleware that adds the CORS headers ([res.header] is
    [res.set]) and answers every [OPTIONS] request itself. *)
Definition cors_headers (method : string) : M handoff :=
  res_set [("Access-Control-Allow-Origin", "*")] ;;
  res_set [("Access-Control-Allow-Methods",
            "GET, PUT, POST, DELETE, OPTIONS, PATCH, HEAD")] ;;
  res_set [("Access-Control-Allow-Headers", "*")] ;;
  res_set [("Access-Control-Allow-Credentials", "true")] ;;
  if String.eqb method "OPTIONS" then
    res_status 200 ;;
    res_end ;;
    ret Answered
  else ret Next.

(** The handler the router of Express selects for a request whose body
    [express.json()] has parsed. *)
Inductive route : Type :=
| GetRoot
| PostCompletion (req : completion_request)
| PostTts (req : tts_request).

(** The promise of an [async] handler whose body has run to its end. *)
Definition settled (r : (thrown + unit) * world) : promise_state * world :=
  match r with
  | (inl e, w) => (Rejected e, w)
  | (inr _, w) => (Resolved, w)
  end.

(** A request through the application: the middleware, then, when it
    calls [next()], the selected handler.  The world [w] is the one the
    [cors] package leaves. *)
Definition serve (P : providers) (method : string) (r : route)
  : world -> promise_state * world :=
  fun w =>
    match cors_headers method w with
    | (inr Next, w1) =>
        match r with
        | GetRoot => settled (get_root w1)
        | PostCompletion req => settled (post_api_completion P req w1)
        | PostTts req => post_api_tts P req w1
        end
    | (inr Answered, w1) => (Resolved, w1)
    | (inl e, w1) => (Rejected e, w1)
    end.

(** The world the middleware leaves. *)
Definition after_cors (method : string) (w : world) : world :=
  snd (cors_headers method w).

(** One [res.header(k, v)] of the middleware, as a step on worlds. *)
Definition put_header (k v : string) (w : world) : world :=
  emit (ResSet [(k, v)])
    (update_res
       (fun r => mkResponse (statusCode r) (set_header k v (headers r))
                   (body r) (headersSent r) (finished r)) w).

(** The world after the four [res.header] calls. *)
Definition cors_world (w : world) : world :=
  put_header "Access-Control-Allow-Credentials" "true"
    (put_header "Access-Control-Allow-Headers" "*"
       (put_header "Access-Control-Allow-Methods"
          "GET, PUT, POST, DELETE, OPTIONS, PATCH, HEAD"
          (put_header "Access-Control-Allow-Origin" "*" w))).

(** The world after [res.status(200).end()] on top of it. *)
Definition preflight_world (w : world) : world :=
  mkWorld
    (mkResponse 200 (headers (res (cors_world w))) (body (res (cors_world w))) true true)
    (trace (cors_world w) ++ [ResStatus 200; ResEnd]).

(** *** More to read off a finished request *)

Definition is_chat_call (e : event) : bool :=
  match e with
  | ChatCreate _ _ => true
  | _ => false
  end.

Definition is_json_answer (e : event) : bool :=
  match e with
  | ResJson _ => true
  | _ => false
  end.

Definition is_speak (e : event) : bool :=
  match e with
  | SpeakTextAsync _ _ => true
  | _ => false
  end.

Definition is_write (e : event) : bool :=
  match e with
  | ResWrite _ => true
  | _ => false
  end.

Definition is_provider_call (e : event) : bool :=
  is_chat_call e || is_image_call e || is_speech_call e.

Definition is_rejected (s : promise_state) : bool :=
  match s with
  | Rejected _ => true
  | _ => false
  end.

(** The chat call answered with a completion that has a first choice. *)
Definition has_text (P : providers) (req : completion_request) : bool :=
  match chat_create P (messages req) "gpt-3.5-turbo" with
  | Fulfils c =>
      match choices c with
      | [] => false
      | _ :: _ => true
      end
  | Rejects _ => false
  end.

(** The synchronous part of the speech route runs without a throw of
    the SDK. *)
Definition session_opens (P : providers) (req : tts_request) : bool :=
  match fromSubscription P with
  | Some _ => false
  | None =>
      match newSpeechSynthesizer P (session_config req) with
      | Some _ => false
      | None => true
      end
  end.

(** The provider hands audio to the success callback. *)
Definition delivers_audio (P : providers) (req : tts_request) : bool :=
  match speakTextAsync P (session_config req) (text req) with
  | CallsBack result =>
      match audio_of result with
      | Some _ => true
      | None => false
      end
  | _ => false
  end.

(** *** Proof steps *)

Ltac handler_steps :=
  unfold post_api_completion, Legacy.post_api_completion,
    post_api_tts, post_api_tts_body, callbacks, on_result, on_error,
    new_promise, sdk_fromSubscription, sdk_newSpeechSynthesizer,
    synthesizer_speakTextAsync, synthesizer_close,
    openai_chat_completions_create, openai_images_generate,
    first_then, await, res_json, res_status, res_set, res_write, res_end,
    res_headersSent, console_error,
    effect, try_catch, bind, ret, throw, emit, update_res.

Ltac flatten_trace :=
  unfold answered, awaiting, streamed, session_events, session_config, audio_headers;
  cbn; rewrite <- ?app_assoc; cbn.

Ltac completion_cases P req :=
  handler_steps;
  destruct (chat_create P (messages req) "gpt-3.5-turbo") as [?c | ?e] eqn:?Hchat; cbn;
  [ destruct (choices _) as [| ?c0 ?rest] eqn:?Hchoices; cbn;
    [ | destruct (truthy (with_default (generateImage req) (JBool false))) eqn:?Hflag; cbn;
        [ destruct (images_generate P _) as [?imgs | ?e] eqn:?Himg; cbn;
          [ destruct (data _) as [| ?i0 ?others] eqn:?Hdata; cbn | ] | ] ] | ].

Ltac tts_cases P req :=
  let Hs := fresh "Hspeak" in
  handler_steps; fold (session_config req);
  destruct (truthy_opt (text req)) eqn:?Htext; cbn;
  [ destruct (fromSubscription P) as [?e |] eqn:?Hcfg; cbn;
    [ | destruct (newSpeechSynthesizer P (session_config req)) as [?e |] eqn:?Hnew; cbn;
        [ | destruct (speakTextAsync P (session_config req) (text req))
              as [?e | ?r | ?e |] eqn:Hs; cbn; rewrite ?Hs; cbn;
            [ | destruct (audio_of _) as [?buf |] eqn:?Haudio; cbn | | ] ] ] | ].

Ltac count_trace :=
  unfold count; cbn [trace]; rewrite ?filter_app, ?length_app; cbn.

(** ** Stub providers and sample requests *)

Definition stub_usage : json :=
  JObj [("prompt_tokens", JNum (9 # 1)); ("completion_tokens", JNum (3 # 1));
        ("total_tokens", JNum (12 # 1))].

Definition stub_completion : completion :=
  mkCompletion [mkChoice (Some "A hand waving hello")] stub_usage.

Definition stub_images : image_response :=
  mkImageResponse [mkImage "https://images.example/1.png"].

Definition stub_audio : list Byte.byte :=
  [Byte.x52; Byte.x49; Byte.x46; Byte.x46; Byte.x00; Byte.x01].

Definition stub (chat : outcome completion) (img : outcome image_response)
    (speak : speak_outcome) : providers :=
  mkProviders (fun _ _ => chat) (fun _ => img) None (fun _ => None) (fun _ _ => speak).

Definition hello_messages : option json :=
  Some (JArr [JObj [("role", JStr "user"); ("content", JStr "hello")]]).

Definition hi : tts_request := mkTtsRequest (Some (JStr "hi")) None.

Definition unused {A} : outcome A := Rejects (ErrorObj "not called").

Definition text_only : completion_request := mkCompletionRequest hello_messages None.

Definition text_only_false : completion_request :=
  mkCompletionRequest hello_messages (Some (JBool false)).

Definition with_picture : completion_request :=
  mkCompletionRequest hello_messages (Some (JBool true)).

Definition chat_down : providers :=
  stub (Rejects (ErrorObj "401 Incorrect API key provided")) unused NeverCallsBack.

Definition chat_only : providers :=
  stub (Fulfils stub_completion) unused NeverCallsBack.

Definition images_down : providers :=
  stub (Fulfils stub_completion) (Rejects (ErrorObj "400 content_policy_violation"))
    NeverCallsBack.

Definition all_up : providers :=
  stub (Fulfils stub_completion) (Fulfils stub_images) NeverCallsBack.

Definition speaking : providers :=
  stub unused unused (CallsBack (Some (mkSynthesisResult (Some stub_audio)))).

Definition silent : providers :=
  stub unused unused (CallsBack (Some (mkSynthesisResult None))).

Definition failing : providers :=
  stub unused unused (CallsError (NonError (JStr "Connection was cancelled"))).

Definition no_text : tts_request := mkTtsRequest (Some (JStr "")) (Some (JStr "en-GB-RyanNeural")).

Definition bad_key : thrown := ErrorObj "throwIfNullOrWhitespace:subscriptionKey".

Definition no_credentials : providers :=
  mkProviders (fun _ _ => unused) (fun _ => unused) (Some bad_key)
    (fun _ => None) (fun _ _ => NeverCallsBack).

Definition no_synthesizer : providers :=
  mkProviders (fun _ _ => unused) (fun _ => unused) None
    (fun _ => Some (ErrorObj "throwIfNullOrUndefined:speechConfig"))
    (fun _ _ => NeverCallsBack).

Definition speak_throws : providers :=
  stub unused unused (SpeakThrows (ErrorObj "synthesizer disposed")).

Definition never_answers : providers :=
  stub unused unused NeverCallsBack.

Definition no_choices : providers :=
  stub (Fulfils (mkCompletion [] stub_usage)) (Fulfils stub_images) NeverCallsBack.

Definition no_images : providers :=
  stub (Fulfils stub_completion) (Fulfils (mkImageResponse [])) NeverCallsBack.

Definition with_picture_string : completion_request :=
  mkCompletionRequest hello_messages (Some (JStr "false")).

(** A world as the [cors] package may leave it: the origin reflected. *)
Definition reflected : world :=
  mkWorld
    (mkResponse 200
       [("Access-Control-Allow-Origin", "https://signs.example");
        ("Vary", "Origin");
        ("Access-Control-Allow-Credentials", "true")]
       [] false false)
    [].

(** ** Facts about the model *)

Lemma truthy_default_false (g : option json) :
  truthy (with_default g (JBool false)) = truthy_opt g.
Proof. destruct g; reflexivity. Qed.

Lemma filter_snoc {A} (p : A -> bool) (xs : list A) (x : A) :
  filter p (xs ++ [x]) = filter p xs ++ (if p x then [x] else []).
Proof. rewrite filter_app. reflexivity. Qed.

Lemma count_emit (p : event -> bool) (e : event) (w : world) :
  count p (emit e w) = count p w + (if p e then 1 else 0).
Proof.
  unfold count, emit. cbn [trace]. rewrite filter_snoc, length_app.
  destruct (p e); reflexivity.
Qed.

(** Looking a header up after [set_header]. *)
Lemma header_filter_other (k k' : string) (hs : list (string * string)) :
  k' <> k ->
  header k (filter (fun kv => negb (String.eqb (fst kv) k')) hs) = header k hs.
Proof.
  intros Hne. induction hs as [| [a v] hs IH]; cbn; [reflexivity |].
  destruct (String.eqb_spec a k') as [-> | Hak']; cbn.
  - destruct (String.eqb_spec k' k) as [E | _]; [contradiction | exact IH].
  - destruct (String.eqb a k); [reflexivity | exact IH].
Qed.

Lemma header_filter_same (k : string) (hs : list (string * string)) :
  header k (filter (fun kv => negb (String.eqb (fst kv) k)) hs) = None.
Proof.
  induction hs as [| [a v] hs IH]; cbn; [reflexivity |].
  destruct (String.eqb_spec a k) as [-> | Hak]; cbn; [exact IH |].
  destruct (String.eqb_spec a k) as [E | _]; [contradiction | exact IH].
Qed.

Lemma header_app (k : string) (hs hs' : list (string * string)) :
  header k (hs ++ hs') =
  match header k hs with
  | Some v => Some v
  | None => header k hs'
  end.
Proof.
  induction hs as [| [a v] hs IH]; cbn; [reflexivity |].
  destruct (String.eqb a k); [reflexivity | exact IH].
Qed.

Lemma header_set_same (k v : string) (hs : list (string * string)) :
  header k (set_header k v hs) = Some v.
Proof.
  unfold set_header. rewrite header_app, header_filter_same. cbn.
  rewrite String.eqb_refl. reflexivity.
Qed.

Lemma header_set_other (k k' v : string) (hs : list (string * string)) :
  k' <> k -> header k (set_header k' v hs) = header k hs.
Proof.
  intros Hne. unfold set_header. rewrite header_app, header_filter_other by exact Hne.
  cbn. destruct (String.eqb_spec k' k) as [E | _]; [contradiction |].
  destruct (header k hs); reflexivity.
Qed.

(** *** The four ways through [POST /api/completion] *)

Lemma completion_chat_rejects (P : providers) (req : completion_request)
    (w : world) (e : thrown) :
  chat_create P (messages req) "gpt-3.5-turbo" = Rejects e ->
  post_api_completion P req w =
  (inr tt,
   answered 500 (error_envelope e)
     [ChatCreate (messages req) "gpt-3.5-turbo";
      ConsoleError "OpenAI API Error:";
      ResStatus 500;
      ResJson (error_envelope e)] w).
Proof.
  intros Hchat. handler_steps. rewrite Hchat. flatten_trace. reflexivity.
Qed.

Lemma completion_text_only (P : providers) (req : completion_request)
    (w : world) (c : completion) (c0 : choice) (rest : list choice) :
  truthy_opt (generateImage req) = false ->
  chat_create P (messages req) "gpt-3.5-turbo" = Fulfils c ->
  choices c = c0 :: rest ->
  post_api_completion P req w =
  (inr tt,
   answered (statusCode (res w))
     [("message", json_of_content (content c0)); ("usage", usage c)]
     [ChatCreate (messages req) "gpt-3.5-turbo";
      ResJson [("message", json_of_content (content c0)); ("usage", usage c)]] w).
Proof.
  intros Hflag Hchat Hchoices. handler_steps.
  rewrite Hchat, Hchoices, truthy_default_false, Hflag.
  flatten_trace. reflexivity.
Qed.

Lemma completion_with_image (P : providers) (req : completion_request)
    (w : world) (c : completion) (c0 : choice) (rest : list choice)
    (imgs : image_response) (i0 : image) (others : list image) :
  truthy_opt (generateImage req) = true ->
  chat_create P (messages req) "gpt-3.5-turbo" = Fulfils c ->
  choices c = c0 :: rest ->
  images_generate P (image_request c0) = Fulfils imgs ->
  data imgs = i0 :: others ->
  post_api_completion P req w =
  (inr tt,
   answered (statusCode (res w))
     [("message", json_of_content (content c0));
      ("image", JStr (url i0));
      ("usage", usage c)]
     [ChatCreate (messages req) "gpt-3.5-turbo";
      ImagesGenerate (image_request c0);
      ResJson [("message", json_of_content (content c0));
               ("image", JStr (url i0));
               ("usage", usage c)]] w).
Proof.
  intros Hflag Hchat Hchoices Himg Hdata. handler_steps.
  rewrite Hchat, Hchoices, truthy_default_false, Hflag.
  fold (image_request c0). rewrite Himg, Hdata.
  flatten_trace. reflexivity.
Qed.

Lemma completion_image_rejects (P : providers) (req : completion_request)
    (w : world) (c : completion) (c0 : choice) (rest : list choice)
    (e : thrown) :
  truthy_opt (generateImage req) = true ->
  chat_create P (messages req) "gpt-3.5-turbo" = Fulfils c ->
  choices c = c0 :: rest ->
  images_generate P (image_request c0) = Rejects e ->
  post_api_completion P req w =
  (inr tt,
   answered (statusCode (res w))
     [("message", json_of_content (content c0));
      ("error", JStr "Image generation failed");
      ("usage", usage c)]
     [ChatCreate (messages req) "gpt-3.5-turbo";
      ImagesGenerate (image_request c0);
      ConsoleError "Image generation error:";
      ResJson [("message", json_of_content (content c0));
               ("error", JStr "Image generation failed");
               ("usage", usage c)]] w).
Proof.
  intros Hflag Hchat Hchoices Himg. handler_steps.
  rewrite Hchat, Hchoices, truthy_default_false, Hflag.
  fold (image_request c0). rewrite Himg.
  flatten_trace. reflexivity.
Qed.

(** A completion without any choice makes [choices[0].message] throw;
    the outer [catch] answers 500 as for a failed call. *)
Lemma completion_no_choice (P : providers) (req : completion_request)
    (w : world) (c : completion) :
  chat_create P (messages req) "gpt-3.5-turbo" = Fulfils c ->
  choices c = [] ->
  statusCode (res (after_completion P req w)) = 500.
Proof.
  intros Hchat Hchoices. unfold after_completion. handler_steps.
  rewrite Hchat, Hchoices. reflexivity.
Qed.

(** Counting calls in a world that was [answered]. *)
Lemma count_answered (p : event -> bool) (code : nat)
    (fields : list (string * json)) (evs : list event) (w : world) :
  count p (answered code fields evs w) = count p w + length (filter p evs).
Proof.
  unfold count, answered. cbn [trace]. rewrite filter_app, length_app. reflexivity.
Qed.

(** *** The ways through [POST /api/tts] *)

Lemma tts_no_text (P : providers) (req : tts_request) (w : world) :
  truthy_opt (text req) = false ->
  post_api_tts P req w =
  (Resolved,
   answered 400 [("error", JStr "Text is required")]
     [ResStatus 400; ResJson [("error", JStr "Text is required")]] w).
Proof.
  intros Htext. handler_steps. rewrite Htext. flatten_trace. reflexivity.
Qed.

(** A failure of the synchronous part is caught by the handler. *)
Lemma tts_config_throws (P : providers) (req : tts_request) (w : world)
    (e : thrown) :
  truthy_opt (text req) = true ->
  fromSubscription P = Some e ->
  headersSent (res w) = false ->
  post_api_tts P req w =
  (Resolved,
   answered 500 (error_envelope e)
     [FromSubscription; ConsoleError "TTS Error:"; ResStatus 500;
      ResJson (error_envelope e)] w).
Proof.
  intros Htext Hcfg Hsent. handler_steps. rewrite Htext, Hcfg. cbn.
  rewrite Hsent. flatten_trace. reflexivity.
Qed.

Lemma tts_audio (P : providers) (req : tts_request) (w : world)
    (result : option synthesis_result) (buf : list Byte.byte) :
  truthy_opt (text req) = true ->
  fromSubscription P = None ->
  newSpeechSynthesizer P (session_config req) = None ->
  speakTextAsync P (session_config req) (text req) = CallsBack result ->
  audio_of result = Some buf ->
  post_api_tts P req w = (Resolved, streamed req buf w).
Proof.
  intros Htext Hcfg Hnew Hspeak Haudio. handler_steps.
  fold (session_config req).
  rewrite Htext, Hcfg, Hnew, Hspeak. cbn. rewrite Hspeak, Haudio.
  flatten_trace. reflexivity.
Qed.

(** A callback without audio rejects the returned promise: the [catch]
    of the handler does not run and nothing is sent. *)
Lemma tts_no_audio (P : providers) (req : tts_request) (w : world)
    (result : option synthesis_result) :
  truthy_opt (text req) = true ->
  fromSubscription P = None ->
  newSpeechSynthesizer P (session_config req) = None ->
  speakTextAsync P (session_config req) (text req) = CallsBack result ->
  audio_of result = None ->
  post_api_tts P req w =
  (Rejected (ErrorObj "No audio data generated"), awaiting req w).
Proof.
  intros Htext Hcfg Hnew Hspeak Haudio. handler_steps.
  fold (session_config req).
  rewrite Htext, Hcfg, Hnew, Hspeak. cbn. rewrite Hspeak, Haudio.
  flatten_trace. reflexivity.
Qed.

(** So does the error callback, after logging. *)
Lemma tts_error_callback (P : providers) (req : tts_request) (w : world)
    (error : thrown) :
  truthy_opt (text req) = true ->
  fromSubscription P = None ->
  newSpeechSynthesizer P (session_config req) = None ->
  speakTextAsync P (session_config req) (text req) = CallsError error ->
  post_api_tts P req w =
  (Rejected error,
   emit (ConsoleError "Speech synthesis error:") (awaiting req w)).
Proof.
  intros Htext Hcfg Hnew Hspeak. handler_steps.
  fold (session_config req).
  rewrite Htext, Hcfg, Hnew, Hspeak. cbn. rewrite Hspeak.
  flatten_trace. reflexivity.
Qed.

(** Whenever the credentials are accepted, the request opens exactly one
    session, with the configuration of the request. *)
Lemma tts_session (P : providers) (req : tts_request) (w : world) :
  truthy_opt (text req) = true ->
  fromSubscription P = None ->
  filter is_session (trace (after_tts P req w)) =
  filter is_session (trace w) ++ [NewSpeechSynthesizer (session_config req)].
Proof.
  intros Htext Hcfg. unfold after_tts. handler_steps.
  fold (session_config req). rewrite Htext, Hcfg. cbn.
  destruct (newSpeechSynthesizer P (session_config req)) as [e |]; cbn.
  - destruct (headersSent (res w)); cbn;
      rewrite ?filter_snoc; cbn; rewrite ?app_nil_r; reflexivity.
  - destruct (speakTextAsync P (session_config req) (text req)) as [e | r | e |] eqn:Hspeak;
      cbn; rewrite ?Hspeak; cbn.
    + rewrite ?filter_snoc; cbn; rewrite ?app_nil_r; reflexivity.
    + destruct (audio_of r); cbn;
        rewrite ?filter_snoc; cbn; rewrite ?app_nil_r; reflexivity.
    + rewrite ?filter_snoc; cbn; rewrite ?app_nil_r; reflexivity.
    + rewrite ?filter_snoc; cbn; rewrite ?app_nil_r; reflexivity.
Qed.

(** *** Facts that hold on every way through the routes *)

(** The completion route never lets an exception out and always ends
    the response. *)
Lemma completion_always_answers (P : providers) (req : completion_request)
    (w : world) :
  fst (post_api_completion P req w) = inr tt /\
  finished (res (after_completion P req w)) = true.
Proof.
  unfold after_completion. handler_steps.
  destruct (chat_create P (messages req) "gpt-3.5-turbo") as [c | e]; cbn;
    [| split; reflexivity].
  destruct (choices c) as [| c0 rest]; cbn; [split; reflexivity |].
  destruct (truthy (with_default (generateImage req) (JBool false))); cbn;
    [| split; reflexivity].
  destruct (images_generate P _) as [imgs | e]; cbn; [| split; reflexivity].
  destruct (data imgs); cbn; split; reflexivity.
Qed.

Lemma incoming_initial : incoming initial.
Proof. unfold incoming. cbn. repeat split. Defined.

(** ** The completion route *)

(** C3: when the chat-completion call fails, the route answers 500 with
    an object that has the fields [error] and [details] and no other (no
    message, usage or image), no exception leaves the handler, and the
    image provider is not called, whatever [generateImage] is. *)
Theorem chat_failure_is_500 (P : providers) (req : completion_request)
    (w : world) (e : thrown) :
  incoming w ->
  chat_create P (messages req) "gpt-3.5-turbo" = Rejects e ->
  fst (post_api_completion P req w) = inr tt /\
  statusCode (res (after_completion P req w)) = 500 /\
  body (res (after_completion P req w)) =
    [Json [("error", JStr "Error processing your request");
           ("details", details_of e)]] /\
  finished (res (after_completion P req w)) = true /\
  count is_image_call (after_completion P req w) = count is_image_call w.
Proof.
  intros (_ & Hbody & _ & _) Hchat. unfold after_completion.
  rewrite (completion_chat_rejects P req w e Hchat). cbn [fst snd].
  rewrite count_answered. unfold answered. cbn. rewrite Hbody.
  repeat split. lia.
Qed.

Lemma chat_failure_is_500_witness :
  fst (post_api_completion chat_down with_picture initial) = inr tt /\
  statusCode (res (after_completion chat_down with_picture initial)) = 500 /\
  body (res (after_completion chat_down with_picture initial)) =
    [Json [("error", JStr "Error processing your request");
           ("details", JStr "401 Incorrect API key provided")]] /\
  finished (res (after_completion chat_down with_picture initial)) = true /\
  count is_image_call (after_completion chat_down with_picture initial) =
    count is_image_call initial.
Proof.
  exact (chat_failure_is_500 chat_down with_picture initial
           (ErrorObj "401 Incorrect API key provided") incoming_initial eq_refl).
Defined.

(** C6: with [generateImage] omitted or [false] and a chat call that
    succeeds, the image provider is not called and the answer is the
    object with exactly the fields [message] and [usage]. *)
Theorem text_only_answer (P : providers) (req : completion_request)
    (w : world) (c : completion) (c0 : choice) (rest : list choice) :
  incoming w ->
  generateImage req = None \/ generateImage req = Some (JBool false) ->
  chat_create P (messages req) "gpt-3.5-turbo" = Fulfils c ->
  choices c = c0 :: rest ->
  fst (post_api_completion P req w) = inr tt /\
  statusCode (res (after_completion P req w)) = 200 /\
  body (res (after_completion P req w)) =
    [Json [("message", json_of_content (content c0)); ("usage", usage c)]] /\
  count is_image_call (after_completion P req w) = count is_image_call w.
Proof.
  intros (Hstatus & Hbody & _ & _) Hflag Hchat Hchoices.
  assert (Hfalsy : truthy_opt (generateImage req) = false)
    by (destruct Hflag as [-> | ->]; reflexivity).
  unfold after_completion.
  rewrite (completion_text_only P req w c c0 rest Hfalsy Hchat Hchoices).
  cbn [fst snd]. rewrite count_answered. unfold answered. cbn.
  rewrite Hbody, Hstatus. repeat split. lia.
Qed.

Lemma text_only_answer_witness :
  fst (post_api_completion chat_only text_only initial) = inr tt /\
  statusCode (res (after_completion chat_only text_only initial)) = 200 /\
  body (res (after_completion chat_only text_only initial)) =
    [Json [("message", JStr "A hand waving hello"); ("usage", stub_usage)]] /\
  count is_image_call (after_completion chat_only text_only initial) =
    count is_image_call initial.
Proof.
  exact (text_only_answer chat_only text_only initial stub_completion
           (mkChoice (Some "A hand waving hello")) []
           incoming_initial (or_introl eq_refl) eq_refl eq_refl).
Defined.

(** C7: with [generateImage] true and a chat call that succeeds, the
    image provider is called once, after the chat call, for one image of
    1024x1024 with the generated text as prompt (the empty string when
    the text is [null]); when it succeeds the answer carries the URL of
    the first image with [message] and [usage]. *)
Theorem image_answer (P : providers) (req : completion_request)
    (w : world) (c : completion) (c0 : choice) (rest : list choice)
    (imgs : image_response) (i0 : image) (others : list image) :
  incoming w ->
  generateImage req = Some (JBool true) ->
  chat_create P (messages req) "gpt-3.5-turbo" = Fulfils c ->
  choices c = c0 :: rest ->
  images_generate P
    (mkImageParams "dall-e-3" (or_empty (content c0)) 1 "1024x1024") = Fulfils imgs ->
  data imgs = i0 :: others ->
  trace (after_completion P req w) =
    trace w ++
    [ChatCreate (messages req) "gpt-3.5-turbo";
     ImagesGenerate (mkImageParams "dall-e-3" (or_empty (content c0)) 1 "1024x1024");
     ResJson [("message", json_of_content (content c0));
              ("image", JStr (url i0));
              ("usage", usage c)]] /\
  statusCode (res (after_completion P req w)) = 200 /\
  body (res (after_completion P req w)) =
    [Json [("message", json_of_content (content c0));
           ("image", JStr (url i0));
           ("usage", usage c)]].
Proof.
  intros (Hstatus & Hbody & _ & _) Hflag Hchat Hchoices Himg Hdata.
  assert (Htruthy : truthy_opt (generateImage req) = true)
    by (rewrite Hflag; reflexivity).
  unfold after_completion.
  rewrite (completion_with_image P req w c c0 rest imgs i0 others
             Htruthy Hchat Hchoices Himg Hdata).
  unfold answered, image_request. cbn. rewrite Hbody, Hstatus.
  repeat split.
Qed.

Lemma image_answer_witness :
  trace (after_completion all_up with_picture initial) =
    trace initial ++
    [ChatCreate hello_messages "gpt-3.5-turbo";
     ImagesGenerate (mkImageParams "dall-e-3" "A hand waving hello" 1 "1024x1024");
     ResJson [("message", JStr "A hand waving hello");
              ("image", JStr "https://images.example/1.png");
              ("usage", stub_usage)]] /\
  statusCode (res (after_completion all_up with_picture initial)) = 200 /\
  body (res (after_completion all_up with_picture initial)) =
    [Json [("message", JStr "A hand waving hello");
           ("image", JStr "https://images.example/1.png");
           ("usage", stub_usage)]].
Proof.
  exact (image_answer all_up with_picture initial stub_completion
           (mkChoice (Some "A hand waving hello")) [] stub_images
           (mkImage "https://images.example/1.png") []
           incoming_initial eq_refl eq_refl eq_refl eq_refl eq_refl).
Defined.

(** C2: with [generateImage] true and a chat call that succeeds, a
    failing image call is absorbed: the route answers 200 with the
    message, the usage and [error: "Image generation failed"], and
    without an [image] field. *)
Theorem image_failure_still_200 (P : providers) (req : completion_request)
    (w : world) (c : completion) (c0 : choice) (rest : list choice)
    (e : thrown) :
  incoming w ->
  generateImage req = Some (JBool true) ->
  chat_create P (messages req) "gpt-3.5-turbo" = Fulfils c ->
  choices c = c0 :: rest ->
  images_generate P
    (mkImageParams "dall-e-3" (or_empty (content c0)) 1 "1024x1024") = Rejects e ->
  fst (post_api_completion P req w) = inr tt /\
  statusCode (res (after_completion P req w)) = 200 /\
  exists fields,
    body (res (after_completion P req w)) = [Json fields] /\
    field "message" fields = Some (json_of_content (content c0)) /\
    field "usage" fields = Some (usage c) /\
    field "error" fields = Some (JStr "Image generation failed") /\
    field "image" fields = None.
Proof.
  intros (Hstatus & Hbody & _ & _) Hflag Hchat Hchoices Himg.
  assert (Htruthy : truthy_opt (generateImage req) = true)
    by (rewrite Hflag; reflexivity).
  unfold after_completion.
  rewrite (completion_image_rejects P req w c c0 rest e Htruthy Hchat Hchoices Himg).
  unfold answered. cbn. rewrite Hbody, Hstatus.
  split; [reflexivity |]. split; [reflexivity |].
  eexists. split; [reflexivity |]. cbn. repeat split.
Qed.

Lemma image_failure_still_200_witness :
  fst (post_api_completion images_down with_picture initial) = inr tt /\
  statusCode (res (after_completion images_down with_picture initial)) = 200 /\
  exists fields,
    body (res (after_completion images_down with_picture initial)) = [Json fields] /\
    field "message" fields = Some (JStr "A hand waving hello") /\
    field "usage" fields = Some stub_usage /\
    field "error" fields = Some (JStr "Image generation failed") /\
    field "image" fields = None.
Proof.
  exact (image_failure_still_200 images_down with_picture initial stub_completion
           (mkChoice (Some "A hand waving hello")) []
           (ErrorObj "400 content_policy_violation")
           incoming_initial eq_refl eq_refl eq_refl eq_refl).
Defined.

(** C10: with [generateImage] absent or [false] the route with image
    generation does, on every world and whatever the chat provider
    answers, exactly what the first version of the route does: the same
    result, the same response and the same effects.  When the chat call
    succeeds both answer the object [message], [usage]; when it fails
    both answer 500 with the error envelope. *)
Theorem completion_refines_legacy (P : providers) (req : completion_request)
    (w : world) :
  generateImage req = None \/ generateImage req = Some (JBool false) ->
  post_api_completion P req w = Legacy.post_api_completion P req w /\
  (forall c c0 rest,
      chat_create P (messages req) "gpt-3.5-turbo" = Fulfils c ->
      choices c = c0 :: rest ->
      Legacy.post_api_completion P req w =
      (inr tt,
       answered (statusCode (res w))
         [("message", json_of_content (content c0)); ("usage", usage c)]
         [ChatCreate (messages req) "gpt-3.5-turbo";
          ResJson [("message", json_of_content (content c0)); ("usage", usage c)]] w)) /\
  (forall e,
      chat_create P (messages req) "gpt-3.5-turbo" = Rejects e ->
      Legacy.post_api_completion P req w =
      (inr tt,
       answered 500 (error_envelope e)
         [ChatCreate (messages req) "gpt-3.5-turbo";
          ConsoleError "OpenAI API Error:";
          ResStatus 500;
          ResJson (error_envelope e)] w)).
Proof.
  intros Hflag.
  assert (Hfalsy : truthy_opt (generateImage req) = false)
    by (destruct Hflag as [-> | ->]; reflexivity).
  assert (Heq : post_api_completion P req w = Legacy.post_api_completion P req w).
  { handler_steps.
    destruct (chat_create P (messages req) "gpt-3.5-turbo") as [c | e]; cbn;
      [| reflexivity].
    destruct (choices c) as [| c0 rest]; cbn; [reflexivity |].
    rewrite truthy_default_false, Hfalsy. reflexivity. }
  split; [exact Heq |]. split.
  - intros c c0 rest Hchat Hchoices. rewrite <- Heq.
    exact (completion_text_only P req w c c0 rest Hfalsy Hchat Hchoices).
  - intros e Hchat. rewrite <- Heq.
    exact (completion_chat_rejects P req w e Hchat).
Qed.

Lemma completion_refines_legacy_witness :
  post_api_completion chat_only text_only_false initial =
  Legacy.post_api_completion chat_only text_only_false initial.
Proof.
  exact (proj1 (completion_refines_legacy chat_only text_only_false initial
                  (or_intror eq_refl))).
Defined.

(** ** The speech route *)

(** C5: when [text] is missing or empty the route answers 400 with
    [{error: "Text is required"}] and makes no call to the speech SDK:
    no configuration, no session, no synthesis. *)
Theorem tts_text_required (P : providers) (req : tts_request) (w : world) :
  incoming w ->
  text req = None \/ text req = Some (JStr "") ->
  fst (post_api_tts P req w) = Resolved /\
  statusCode (res (after_tts P req w)) = 400 /\
  body (res (after_tts P req w)) = [Json [("error", JStr "Text is required")]] /\
  count is_speech_call (after_tts P req w) = count is_speech_call w.
Proof.
  intros (_ & Hbody & _ & _) Htext.
  assert (Hfalsy : truthy_opt (text req) = false)
    by (destruct Htext as [-> | ->]; reflexivity).
  unfold after_tts. rewrite (tts_no_text P req w Hfalsy). cbn [fst snd].
  rewrite count_answered. unfold answered. cbn. rewrite Hbody.
  repeat split. lia.
Qed.

Lemma tts_text_required_witness :
  fst (post_api_tts speaking no_text initial) = Resolved /\
  statusCode (res (after_tts speaking no_text initial)) = 400 /\
  body (res (after_tts speaking no_text initial)) =
    [Json [("error", JStr "Text is required")]] /\
  count is_speech_call (after_tts speaking no_text initial) =
    count is_speech_call initial.
Proof.
  exact (tts_text_required speaking no_text initial incoming_initial
           (or_intror eq_refl)).
Defined.

(** C8: for a request with a non-empty text whose credentials the SDK
    accepts, the one session the request opens is configured with the
    voice of the request, and with [en-US-JennyMultilingualNeural] when
    the request has no [voice] field. *)
Theorem tts_voice (P : providers) (req : tts_request) (w : world) :
  truthy_opt (text req) = true ->
  fromSubscription P = None ->
  filter is_session (trace (after_tts P req w)) =
  filter is_session (trace w) ++
  [NewSpeechSynthesizer
     (mkSpeechConfig
        match voice req with
        | None => JStr "en-US-JennyMultilingualNeural"
        | Some v => v
        end)].
Proof.
  intros Htext Hcfg. exact (tts_session P req w Htext Hcfg).
Qed.

Lemma tts_voice_witness :
  filter is_session (trace (after_tts speaking hi initial)) =
  [NewSpeechSynthesizer (mkSpeechConfig (JStr "en-US-JennyMultilingualNeural"))].
Proof.
  exact (tts_voice speaking hi initial eq_refl eq_refl).
Defined.

(** C9: when the provider calls back with audio data, the route has put
    the headers [Content-Type: audio/wav] and [Transfer-Encoding:
    chunked], sends as body the buffer of the provider and nothing else,
    ends the response and closes the session, with status 200.  The
    effects are, in this order: write, end, close. *)
Theorem tts_streams_audio (P : providers) (req : tts_request) (w : world)
    (buf : list Byte.byte) :
  incoming w ->
  truthy_opt (text req) = true ->
  fromSubscription P = None ->
  newSpeechSynthesizer P (session_config req) = None ->
  speakTextAsync P (session_config req) (text req) =
    CallsBack (Some (mkSynthesisResult (Some buf))) ->
  fst (post_api_tts P req w) = Resolved /\
  header "Content-Type" (headers (res (after_tts P req w))) = Some "audio/wav" /\
  header "Transfer-Encoding" (headers (res (after_tts P req w))) = Some "chunked" /\
  statusCode (res (after_tts P req w)) = 200 /\
  body (res (after_tts P req w)) = [Bytes buf] /\
  finished (res (after_tts P req w)) = true /\
  trace (after_tts P req w) =
    trace w ++
    [FromSubscription;
     ResSet [("Content-Type", "audio/wav"); ("Transfer-Encoding", "chunked")];
     NewSpeechSynthesizer (session_config req);
     SpeakTextAsync (session_config req) (text req);
     ResWrite buf; ResEnd; SynthesizerClose].
Proof.
  intros (Hstatus & Hbody & _ & _) Htext Hcfg Hnew Hspeak.
  unfold after_tts.
  rewrite (tts_audio P req w _ buf Htext Hcfg Hnew Hspeak eq_refl).
  cbn [fst snd]. unfold streamed, audio_headers, session_events.
  cbn [res trace statusCode headers body finished app].
  rewrite Hstatus, Hbody.
  split; [reflexivity |].
  split.
  { rewrite header_set_other by discriminate. apply header_set_same. }
  split; [apply header_set_same |].
  repeat split.
Qed.

Lemma tts_streams_audio_witness :
  fst (post_api_tts speaking hi initial) = Resolved /\
  header "Content-Type" (headers (res (after_tts speaking hi initial))) = Some "audio/wav" /\
  header "Transfer-Encoding" (headers (res (after_tts speaking hi initial))) = Some "chunked" /\
  statusCode (res (after_tts speaking hi initial)) = 200 /\
  body (res (after_tts speaking hi initial)) = [Bytes stub_audio] /\
  finished (res (after_tts speaking hi initial)) = true /\
  trace (after_tts speaking hi initial) =
    trace initial ++
    [FromSubscription;
     ResSet [("Content-Type", "audio/wav"); ("Transfer-Encoding", "chunked")];
     NewSpeechSynthesizer (session_config hi);
     SpeakTextAsync (session_config hi) (text hi);
     ResWrite stub_audio; ResEnd; SynthesizerClose].
Proof.
  exact (tts_streams_audio speaking hi initial stub_audio incoming_initial
           eq_refl eq_refl eq_refl eq_refl).
Defined.

(** C1: at the request [{text: "hi"}], when the provider calls back
    with a result that carries no audio, the promise the handler has
    returned is rejected with "No audio data generated": the rejection
    leaves the handler, the [catch] block does not run and no 500 answer
    (nor anything else) is sent. *)
Theorem tts_no_audio_escapes :
  post_api_tts silent hi initial =
    (Rejected (ErrorObj "No audio data generated"), awaiting hi initial) /\
  statusCode (res (after_tts silent hi initial)) = 200 /\
  body (res (after_tts silent hi initial)) = [] /\
  headersSent (res (after_tts silent hi initial)) = false /\
  finished (res (after_tts silent hi initial)) = false /\
  ~ In (ConsoleError "TTS Error:") (trace (after_tts silent hi initial)).
Proof.
  assert (H : post_api_tts silent hi initial =
              (Rejected (ErrorObj "No audio data generated"), awaiting hi initial))
    by exact (tts_no_audio silent hi initial _ eq_refl eq_refl eq_refl eq_refl eq_refl).
  unfold after_tts. rewrite H. cbn.
  repeat split.
  intros [E | [E | [E | [E | []]]]]; discriminate E.
Qed.

(** C4: at the request [{text: "hi"}], when the provider calls the
    error callback, the request has opened one session and the handler
    is over (its promise is rejected) without any call to [close]. *)
Theorem tts_failure_leaves_session_open :
  fst (post_api_tts failing hi initial) =
    Rejected (NonError (JStr "Connection was cancelled")) /\
  count is_session (after_tts failing hi initial) = 1 /\
  count is_close (after_tts failing hi initial) = 0.
Proof.
  unfold after_tts.
  rewrite (tts_error_callback failing hi initial
             (NonError (JStr "Connection was cancelled"))
             eq_refl eq_refl eq_refl eq_refl).
  repeat split.
Qed.

(** ** Further properties of the completion route *)

(** X1: whatever the providers answer, the completion route lets no
    exception out and answers exactly once, with one JSON object, and
    ends the response. *)
Theorem completion_answers_exactly_once (P : providers)
    (req : completion_request) (w : world) :
  fst (post_api_completion P req w) = inr tt /\
  count is_json_answer (after_completion P req w) = count is_json_answer w + 1 /\
  headersSent (res (after_completion P req w)) = true /\
  finished (res (after_completion P req w)) = true.
Proof.
  unfold after_completion. completion_cases P req;
    count_trace; repeat split; lia.
Qed.

(** X2: the status of the answer is 200 exactly when the chat call has
    given a completion with a first choice, and 500 otherwise; neither
    [generateImage] nor the image provider has a say in it. *)
Theorem completion_status (P : providers) (req : completion_request)
    (w : world) :
  incoming w ->
  statusCode (res (after_completion P req w)) =
  if has_text P req then 200 else 500.
Proof.
  intros (Hstatus & _). unfold after_completion, has_text.
  completion_cases P req; try reflexivity; exact Hstatus.
Qed.

Lemma completion_status_witness :
  statusCode (res (after_completion images_down with_picture initial)) = 200.
Proof.
  exact (completion_status images_down with_picture initial incoming_initial).
Defined.

(** X3: the image provider is called at most once per request, and it is
    called exactly when the chat call has given a first choice and
    [generateImage] is truthy. *)
Theorem image_called_iff (P : providers) (req : completion_request)
    (w : world) :
  count is_image_call (after_completion P req w) =
  count is_image_call w +
  (if has_text P req && truthy_opt (generateImage req) then 1 else 0).
Proof.
  unfold after_completion, has_text. rewrite <- truthy_default_false.
  completion_cases P req; count_trace; lia.
Qed.

(** X4: every request calls the chat provider exactly once, before any
    other effect, with the [messages] of the body as they came (absent
    ones included) and the model [gpt-3.5-turbo]. *)
Theorem chat_called_once_first (P : providers) (req : completion_request)
    (w : world) :
  exists others,
    trace (after_completion P req w) =
      trace w ++ ChatCreate (messages req) "gpt-3.5-turbo" :: others /\
    filter is_chat_call others = [].
Proof.
  unfold after_completion.
  completion_cases P req; rewrite <- ?app_assoc; cbn;
    eexists; (split; [reflexivity | reflexivity]).
Qed.

(** X5: a completion without any choice is answered like a failed chat
    call: reading [choices[0].message] throws, the outer [catch] sends
    500 with the message of the [TypeError] as details, and the image
    provider is not called even when [generateImage] is true. *)
Theorem no_choice_is_500 (P : providers) (req : completion_request)
    (w : world) (c : completion) :
  incoming w ->
  chat_create P (messages req) "gpt-3.5-turbo" = Fulfils c ->
  choices c = [] ->
  fst (post_api_completion P req w) = inr tt /\
  statusCode (res (after_completion P req w)) = 500 /\
  body (res (after_completion P req w)) =
    [Json [("error", JStr "Error processing your request");
           ("details",
            JStr "Cannot read properties of undefined (reading 'message')")]] /\
  count is_image_call (after_completion P req w) = count is_image_call w.
Proof.
  intros (_ & Hbody & _) Hchat Hchoices. unfold after_completion.
  handler_steps. rewrite Hchat, Hchoices. cbn. rewrite Hbody.
  count_trace. repeat split. lia.
Qed.

Lemma no_choice_is_500_witness :
  fst (post_api_completion no_choices with_picture initial) = inr tt /\
  statusCode (res (after_completion no_choices with_picture initial)) = 500 /\
  body (res (after_completion no_choices with_picture initial)) =
    [Json [("error", JStr "Error processing your request");
           ("details",
            JStr "Cannot read properties of undefined (reading 'message')")]] /\
  count is_image_call (after_completion no_choices with_picture initial) =
    count is_image_call initial.
Proof.
  exact (no_choice_is_500 no_choices with_picture initial
           (mkCompletion [] stub_usage) incoming_initial eq_refl eq_refl).
Defined.

(** X6: an image call that succeeds without any image is answered like
    one that fails: reading [data[0].url] throws inside the inner [try],
    so the answer is 200 with the message, the usage and the marker
    "Image generation failed". *)
Theorem no_image_is_marked (P : providers) (req : completion_request)
    (w : world) (c : completion) (c0 : choice) (rest : list choice)
    (imgs : image_response) :
  truthy_opt (generateImage req) = true ->
  chat_create P (messages req) "gpt-3.5-turbo" = Fulfils c ->
  choices c = c0 :: rest ->
  images_generate P
    (mkImageParams "dall-e-3" (or_empty (content c0)) 1 "1024x1024") = Fulfils imgs ->
  data imgs = [] ->
  post_api_completion P req w =
  (inr tt,
   answered (statusCode (res w))
     [("message", json_of_content (content c0));
      ("error", JStr "Image generation failed");
      ("usage", usage c)]
     [ChatCreate (messages req) "gpt-3.5-turbo";
      ImagesGenerate (mkImageParams "dall-e-3" (or_empty (content c0)) 1 "1024x1024");
      ConsoleError "Image generation error:";
      ResJson [("message", json_of_content (content c0));
               ("error", JStr "Image generation failed");
               ("usage", usage c)]] w).
Proof.
  intros Hflag Hchat Hchoices Himg Hdata. handler_steps.
  rewrite Hchat, Hchoices, truthy_default_false, Hflag, Himg, Hdata.
  flatten_trace. reflexivity.
Qed.

Lemma no_image_is_marked_witness :
  post_api_completion no_images with_picture initial =
  (inr tt,
   answered 200
     [("message", JStr "A hand waving hello");
      ("error", JStr "Image generation failed");
      ("usage", stub_usage)]
     [ChatCreate hello_messages "gpt-3.5-turbo";
      ImagesGenerate (mkImageParams "dall-e-3" "A hand waving hello" 1 "1024x1024");
      ConsoleError "Image generation error:";
      ResJson [("message", JStr "A hand waving hello");
               ("error", JStr "Image generation failed");
               ("usage", stub_usage)]] initial).
Proof.
  exact (no_image_is_marked no_images with_picture initial stub_completion
           (mkChoice (Some "A hand waving hello")) [] (mkImageResponse [])
           eq_refl eq_refl eq_refl eq_refl eq_refl).
Defined.

(** X7: the route reads [generateImage] through its truthiness only: two
    bodies with the same messages whose flags are both truthy (as [true],
    [1] or the string ["false"]) or both falsy (as [false], [0], [null]
    or no flag) are served alike. *)
Theorem flag_read_by_truthiness (P : providers) (r1 r2 : completion_request)
    (w : world) :
  messages r1 = messages r2 ->
  truthy_opt (generateImage r1) = truthy_opt (generateImage r2) ->
  post_api_completion P r1 w = post_api_completion P r2 w.
Proof.
  intros Hmsg Hflag. handler_steps.
  rewrite !truthy_default_false, Hmsg, Hflag. reflexivity.
Qed.

Lemma flag_read_by_truthiness_witness :
  post_api_completion all_up with_picture_string initial =
  post_api_completion all_up with_picture initial.
Proof.
  exact (flag_read_by_truthiness all_up with_picture_string with_picture initial
           eq_refl eq_refl).
Defined.

(** X8: the first version of the route (src/index.ts) answers exactly
    once too, never calls the image provider, and its status is 200
    exactly when the chat call has given a first choice. *)
Theorem legacy_answers_exactly_once (P : providers)
    (req : completion_request) (w : world) :
  incoming w ->
  fst (Legacy.post_api_completion P req w) = inr tt /\
  count is_json_answer (snd (Legacy.post_api_completion P req w)) =
    count is_json_answer w + 1 /\
  count is_image_call (snd (Legacy.post_api_completion P req w)) =
    count is_image_call w /\
  finished (res (snd (Legacy.post_api_completion P req w))) = true /\
  statusCode (res (snd (Legacy.post_api_completion P req w))) =
    (if has_text P req then 200 else 500).
Proof.
  intros (Hstatus & _). unfold has_text. handler_steps.
  destruct (chat_create P (messages req) "gpt-3.5-turbo") as [c | e]; cbn.
  - destruct (choices c) as [| c0 rest]; cbn; count_trace;
      repeat split; try lia; exact Hstatus.
  - count_trace. repeat split; lia.
Qed.

Lemma legacy_answers_exactly_once_witness :
  fst (Legacy.post_api_completion chat_down with_picture initial) = inr tt /\
  count is_json_answer (snd (Legacy.post_api_completion chat_down with_picture initial)) =
    count is_json_answer initial + 1 /\
  count is_image_call (snd (Legacy.post_api_completion chat_down with_picture initial)) =
    count is_image_call initial /\
  finished (res (snd (Legacy.post_api_completion chat_down with_picture initial))) = true /\
  statusCode (res (snd (Legacy.post_api_completion chat_down with_picture initial))) =
    (if has_text chat_down with_picture then 200 else 500).
Proof.
  exact (legacy_answers_exactly_once chat_down with_picture initial incoming_initial).
Defined.

(** ** Further properties of the speech route *)

(** X9: the status of the speech route is 400 when [text] is falsy
    (missing, empty, [null], [0] or [false]), 500 when the SDK throws
    while the session is set up, and 200 in every other case, the ones
    in which synthesis fails included. *)
Theorem tts_status (P : providers) (req : tts_request) (w : world) :
  incoming w ->
  statusCode (res (after_tts P req w)) =
  if truthy_opt (text req) then
    if session_opens P req then 200 else 500
  else 400.
Proof.
  intros (Hstatus & _ & Hsent & _). unfold after_tts, session_opens.
  tts_cases P req; rewrite ?Hsent; cbn; try reflexivity; exact Hstatus.
Qed.

Lemma tts_status_witness :
  statusCode (res (after_tts silent hi initial)) = 200.
Proof.
  exact (tts_status silent hi initial incoming_initial).
Defined.

(** X10: when [SpeechConfig.fromSubscription] throws, the [catch] of the
    handler answers 500 with the error envelope, the handler resolves,
    and no session is created and no synthesis started. *)
Theorem tts_bad_credentials (P : providers) (req : tts_request) (w : world)
    (e : thrown) :
  incoming w ->
  truthy_opt (text req) = true ->
  fromSubscription P = Some e ->
  fst (post_api_tts P req w) = Resolved /\
  statusCode (res (after_tts P req w)) = 500 /\
  body (res (after_tts P req w)) =
    [Json [("error", JStr "Error processing your request");
           ("details", details_of e)]] /\
  count is_session (after_tts P req w) = count is_session w /\
  count is_speak (after_tts P req w) = count is_speak w.
Proof.
  intros (_ & Hbody & Hsent & _) Htext Hcfg. unfold after_tts.
  rewrite (tts_config_throws P req w e Htext Hcfg Hsent). cbn [fst snd].
  rewrite !count_answered. unfold answered. cbn. rewrite Hbody.
  repeat split; lia.
Qed.

Lemma tts_bad_credentials_witness :
  fst (post_api_tts no_credentials hi initial) = Resolved /\
  statusCode (res (after_tts no_credentials hi initial)) = 500 /\
  body (res (after_tts no_credentials hi initial)) =
    [Json [("error", JStr "Error processing your request");
           ("details", JStr "throwIfNullOrWhitespace:subscriptionKey")]] /\
  count is_session (after_tts no_credentials hi initial) = count is_session initial /\
  count is_speak (after_tts no_credentials hi initial) = count is_speak initial.
Proof.
  exact (tts_bad_credentials no_credentials hi initial bad_key
           incoming_initial eq_refl eq_refl).
Defined.

(** X11: when the constructor of the synthesizer throws, the [catch] of
    the handler answers 500 with the error envelope (the headers were
    put but not sent), the handler resolves, and nothing is synthesized
    or closed. *)
Theorem tts_constructor_throws (P : providers) (req : tts_request) (w : world)
    (e : thrown) :
  incoming w ->
  truthy_opt (text req) = true ->
  fromSubscription P = None ->
  newSpeechSynthesizer P (session_config req) = Some e ->
  fst (post_api_tts P req w) = Resolved /\
  statusCode (res (after_tts P req w)) = 500 /\
  body (res (after_tts P req w)) =
    [Json [("error", JStr "Error processing your request");
           ("details", details_of e)]] /\
  count is_speak (after_tts P req w) = count is_speak w /\
  count is_close (after_tts P req w) = count is_close w.
Proof.
  intros (_ & Hbody & Hsent & _) Htext Hcfg Hnew. unfold after_tts.
  handler_steps. fold (session_config req).
  rewrite Htext, Hcfg, Hnew. cbn. rewrite Hsent. cbn. rewrite Hbody.
  count_trace. repeat split; lia.
Qed.

Lemma tts_constructor_throws_witness :
  fst (post_api_tts no_synthesizer hi initial) = Resolved /\
  statusCode (res (after_tts no_synthesizer hi initial)) = 500 /\
  body (res (after_tts no_synthesizer hi initial)) =
    [Json [("error", JStr "Error processing your request");
           ("details", JStr "throwIfNullOrUndefined:speechConfig")]] /\
  count is_speak (after_tts no_synthesizer hi initial) = count is_speak initial /\
  count is_close (after_tts no_synthesizer hi initial) = count is_close initial.
Proof.
  exact (tts_constructor_throws no_synthesizer hi initial
           (ErrorObj "throwIfNullOrUndefined:speechConfig")
           incoming_initial eq_refl eq_refl eq_refl).
Defined.

(** X12: an exception of [speakTextAsync] itself is thrown inside the
    executor of the promise: it rejects the promise and does not reach
    the [catch] of the handler, so the handler's promise is rejected
    with it and the response is left with its headers put and nothing
    sent. *)
Theorem tts_speak_throws (P : providers) (req : tts_request) (w : world)
    (e : thrown) :
  truthy_opt (text req) = true ->
  session_opens P req = true ->
  speakTextAsync P (session_config req) (text req) = SpeakThrows e ->
  post_api_tts P req w = (Rejected e, awaiting req w).
Proof.
  intros Htext Hopen Hspeak. unfold session_opens in Hopen.
  destruct (fromSubscription P) eqn:Hcfg; [discriminate |].
  destruct (newSpeechSynthesizer P (session_config req)) eqn:Hnew; [discriminate |].
  handler_steps. fold (session_config req).
  rewrite Htext, Hcfg, Hnew, Hspeak. cbn. rewrite ?Hspeak.
  flatten_trace. reflexivity.
Qed.

Lemma tts_speak_throws_witness :
  post_api_tts speak_throws hi initial =
  (Rejected (ErrorObj "synthesizer disposed"), awaiting hi initial).
Proof.
  exact (tts_speak_throws speak_throws hi initial (ErrorObj "synthesizer disposed")
           eq_refl eq_refl eq_refl).
Defined.

(** X13: when the SDK never calls back, the handler's promise stays
    pending and the response is never ended: the route has no timeout of
    its own. *)
Theorem tts_never_calls_back (P : providers) (req : tts_request) (w : world) :
  truthy_opt (text req) = true ->
  session_opens P req = true ->
  speakTextAsync P (session_config req) (text req) = NeverCallsBack ->
  post_api_tts P req w = (Pending, awaiting req w).
Proof.
  intros Htext Hopen Hspeak. unfold session_opens in Hopen.
  destruct (fromSubscription P) eqn:Hcfg; [discriminate |].
  destruct (newSpeechSynthesizer P (session_config req)) eqn:Hnew; [discriminate |].
  handler_steps. fold (session_config req).
  rewrite Htext, Hcfg, Hnew, Hspeak. cbn. rewrite ?Hspeak.
  flatten_trace. reflexivity.
Qed.

Lemma tts_never_calls_back_witness :
  post_api_tts never_answers hi initial = (Pending, awaiting hi initial).
Proof.
  exact (tts_never_calls_back never_answers hi initial eq_refl eq_refl eq_refl).
Defined.

(** X14: in every request the route writes audio at most once and
    closes the synthesizer at most once, and it does either exactly when
    the text is truthy, the session opens and the provider hands audio
    to the success callback. *)
Theorem tts_write_and_close_iff_audio (P : providers) (req : tts_request)
    (w : world) :
  count is_write (after_tts P req w) =
    count is_write w +
    (if truthy_opt (text req) && session_opens P req && delivers_audio P req
     then 1 else 0) /\
  count is_close (after_tts P req w) =
    count is_close w +
    (if truthy_opt (text req) && session_opens P req && delivers_audio P req
     then 1 else 0).
Proof.
  unfold after_tts, session_opens, delivers_audio.
  tts_cases P req;
    try (destruct (headersSent (res w)); cbn);
    rewrite ?Haudio; count_trace; split; lia.
Qed.

(** X15: the response is ended exactly when the promise of the handler
    resolves: a rejected or pending handler has left the response open,
    and a resolved one has ended it. *)
Theorem tts_finished_iff_resolved (P : providers) (req : tts_request)
    (w : world) :
  incoming w ->
  finished (res (after_tts P req w)) = true <->
  fst (post_api_tts P req w) = Resolved.
Proof.
  intros (_ & _ & Hsent & Hfin). unfold after_tts.
  tts_cases P req; rewrite ?Hsent; cbn; rewrite ?Hfin;
    split; intros H; try reflexivity; try discriminate H.
Qed.

Lemma tts_finished_iff_resolved_witness :
  finished (res (after_tts failing hi initial)) = true <->
  fst (post_api_tts failing hi initial) = Resolved.
Proof.
  exact (tts_finished_iff_resolved failing hi initial incoming_initial).
Defined.

(** X16: once the session opens, the route starts synthesis exactly
    once, on the configuration of the request and with the [text] of the
    body as it came, whatever truthy JSON value it is. *)
Theorem tts_speaks_once (P : providers) (req : tts_request) (w : world) :
  truthy_opt (text req) = true ->
  session_opens P req = true ->
  filter is_speak (trace (after_tts P req w)) =
  filter is_speak (trace w) ++ [SpeakTextAsync (session_config req) (text req)].
Proof.
  intros Htext Hopen. unfold after_tts. unfold session_opens in Hopen.
  tts_cases P req; try discriminate;
    rewrite ?filter_snoc; cbn; rewrite ?app_nil_r; reflexivity.
Qed.

Lemma tts_speaks_once_witness :
  filter is_speak (trace (after_tts speaking hi initial)) =
  filter is_speak (trace initial) ++
  [SpeakTextAsync (session_config hi) (text hi)].
Proof.
  exact (tts_speaks_once speaking hi initial eq_refl eq_refl).
Defined.

(** ** The middleware and the application *)

(** One effect, then the rest: the worlds stay folded. *)
Lemma effect_then {B} (e : event) (f : response -> response)
    (k : unit -> M B) (w : world) :
  bind (effect e f) k w = k tt (emit e (update_res f w)).
Proof. reflexivity. Qed.

Lemma res_set_one (k v : string) (w : world) :
  emit (ResSet [(k, v)])
    (update_res
       (fun r => mkResponse (statusCode r)
                   (fold_left (fun acc kv => set_header (fst kv) (snd kv) acc)
                      [(k, v)] (headers r))
                   (body r) (headersSent r) (finished r)) w) =
  put_header k v w.
Proof. reflexivity. Qed.

Lemma res_put_header (k v : string) (w : world) :
  res (put_header k v w) =
  mkResponse (statusCode (res w)) (set_header k v (headers (res w)))
    (body (res w)) (headersSent (res w)) (finished (res w)).
Proof. reflexivity. Qed.

Lemma trace_put_header (k v : string) (w : world) :
  trace (put_header k v w) = trace w ++ [ResSet [(k, v)]].
Proof. reflexivity. Qed.

Lemma res_cors_world (w : world) :
  res (cors_world w) =
  mkResponse (statusCode (res w))
    (set_header "Access-Control-Allow-Credentials" "true"
       (set_header "Access-Control-Allow-Headers" "*"
          (set_header "Access-Control-Allow-Methods"
             "GET, PUT, POST, DELETE, OPTIONS, PATCH, HEAD"
             (set_header "Access-Control-Allow-Origin" "*" (headers (res w))))))
    (body (res w)) (headersSent (res w)) (finished (res w)).
Proof.
  unfold cors_world. rewrite !res_put_header. cbn [statusCode headers body headersSent finished].
  reflexivity.
Qed.

Lemma trace_cors_world (w : world) :
  trace (cors_world w) =
  trace w ++
  [ResSet [("Access-Control-Allow-Origin", "*")];
   ResSet [("Access-Control-Allow-Methods",
            "GET, PUT, POST, DELETE, OPTIONS, PATCH, HEAD")];
   ResSet [("Access-Control-Allow-Headers", "*")];
   ResSet [("Access-Control-Allow-Credentials", "true")]].
Proof.
  unfold cors_world. rewrite !trace_put_header, <- !app_assoc. reflexivity.
Qed.

Lemma cors_headers_steps (method : string) (w : world) :
  cors_headers method w =
  if String.eqb method "OPTIONS"
  then (inr Answered, preflight_world w)
  else (inr Next, cors_world w).
Proof.
  unfold cors_headers, res_set.
  rewrite effect_then, res_set_one. cbv beta.
  rewrite effect_then, res_set_one. cbv beta.
  rewrite effect_then, res_set_one. cbv beta.
  rewrite effect_then, res_set_one. cbv beta.
  fold (cors_world w).
  destruct (String.eqb method "OPTIONS"); [| reflexivity].
  unfold res_status, res_end.
  rewrite effect_then. cbv beta. rewrite effect_then. cbv beta.
  unfold ret, preflight_world, emit, update_res.
  cbn [res trace statusCode headers body headersSent finished].
  rewrite <- app_assoc. reflexivity.
Qed.

Lemma cors_headers_run (method : string) (w : world) :
  cors_headers method w =
  (inr (if String.eqb method "OPTIONS" then Answered else Next),
   after_cors method w).
Proof.
  unfold after_cors. rewrite cors_headers_steps.
  destruct (String.eqb method "OPTIONS"); reflexivity.
Qed.

Lemma after_cors_world (method : string) (w : world) :
  after_cors method w =
  if String.eqb method "OPTIONS" then preflight_world w else cors_world w.
Proof.
  unfold after_cors. rewrite cors_headers_steps.
  destruct (String.eqb method "OPTIONS"); reflexivity.
Qed.

Lemma after_cors_headers (method : string) (w : world) :
  headers (res (after_cors method w)) =
  set_header "Access-Control-Allow-Credentials" "true"
    (set_header "Access-Control-Allow-Headers" "*"
       (set_header "Access-Control-Allow-Methods"
          "GET, PUT, POST, DELETE, OPTIONS, PATCH, HEAD"
          (set_header "Access-Control-Allow-Origin" "*" (headers (res w))))).
Proof.
  rewrite after_cors_world.
  destruct (String.eqb method "OPTIONS"); unfold preflight_world;
    cbn [res headers]; rewrite res_cors_world; reflexivity.
Qed.

Lemma after_cors_lookup (method : string) (w : world) :
  header "Access-Control-Allow-Origin" (headers (res (after_cors method w))) =
    Some "*" /\
  header "Access-Control-Allow-Methods" (headers (res (after_cors method w))) =
    Some "GET, PUT, POST, DELETE, OPTIONS, PATCH, HEAD" /\
  header "Access-Control-Allow-Headers" (headers (res (after_cors method w))) =
    Some "*" /\
  header "Access-Control-Allow-Credentials" (headers (res (after_cors method w))) =
    Some "true".
Proof.
  rewrite after_cors_headers.
  repeat split;
    repeat (rewrite header_set_other by discriminate);
    apply header_set_same.
Qed.

(** In the model the completion routes and [GET /] leave the headers
    put by [res.set] as they are. *)
Lemma completion_keeps_headers (P : providers) (req : completion_request)
    (w : world) :
  headers (res (snd (post_api_completion P req w))) = headers (res w).
Proof. completion_cases P req; reflexivity. Qed.

(** The speech route puts the two audio headers and no other. *)
Lemma tts_keeps_other_headers (P : providers) (req : tts_request) (w : world)
    (k : string) :
  k <> "Content-Type" -> k <> "Transfer-Encoding" ->
  header k (headers (res (snd (post_api_tts P req w)))) = header k (headers (res w)).
Proof.
  intros Hct Hte.
  assert (Haudio : header k
            (set_header "Transfer-Encoding" "chunked"
               (set_header "Content-Type" "audio/wav" (headers (res w)))) =
          header k (headers (res w))).
  { rewrite !header_set_other; [reflexivity | |]; congruence. }
  tts_cases P req; try (destruct (headersSent (res w)); cbn);
    first [reflexivity | exact Haudio].
Qed.

(** X17: whatever the method and whatever headers the response already
    has (the [cors] package may have reflected the origin), the
    middleware leaves the four CORS headers with its own values. *)
Theorem cors_headers_override (method : string) (w : world) :
  header "Access-Control-Allow-Origin" (headers (res (after_cors method w))) =
    Some "*" /\
  header "Access-Control-Allow-Methods" (headers (res (after_cors method w))) =
    Some "GET, PUT, POST, DELETE, OPTIONS, PATCH, HEAD" /\
  header "Access-Control-Allow-Headers" (headers (res (after_cors method w))) =
    Some "*" /\
  header "Access-Control-Allow-Credentials" (headers (res (after_cors method w))) =
    Some "true".
Proof.
  rewrite after_cors_headers.
  repeat split.
  - rewrite !header_set_other by discriminate. apply header_set_same.
  - rewrite !header_set_other by discriminate. apply header_set_same.
  - rewrite header_set_other by discriminate. apply header_set_same.
  - apply header_set_same.
Qed.

(** X18: an [OPTIONS] request is answered by the middleware, whatever
    the route and the providers: status 200, nothing added to the body,
    response ended, no handler run (no JSON answer) and no provider
    called. *)
Theorem options_short_circuit (P : providers) (r : route) (w : world) :
  fst (serve P "OPTIONS" r w) = Resolved /\
  statusCode (res (snd (serve P "OPTIONS" r w))) = 200 /\
  body (res (snd (serve P "OPTIONS" r w))) = body (res w) /\
  finished (res (snd (serve P "OPTIONS" r w))) = true /\
  count is_json_answer (snd (serve P "OPTIONS" r w)) = count is_json_answer w /\
  count is_provider_call (snd (serve P "OPTIONS" r w)) = count is_provider_call w.
Proof.
  unfold serve. rewrite cors_headers_steps.
  change (String.eqb "OPTIONS" "OPTIONS") with true. cbn [fst snd].
  unfold count, preflight_world. cbn [res trace statusCode body finished].
  rewrite res_cors_world, trace_cors_world. cbn [body].
  rewrite !filter_app, !length_app. cbn.
  repeat split; lia.
Qed.

(** X19: a request of any other method is handed on with nothing sent:
    the response reaches the route as the claims about the routes
    assume it (status 200, empty body, headers not sent, not ended), and
    the middleware has called no provider. *)
Theorem cors_hands_on (method : string) (w : world) :
  incoming w ->
  method <> "OPTIONS" ->
  fst (cors_headers method w) = inr Next /\
  incoming (after_cors method w) /\
  count is_provider_call (after_cors method w) = count is_provider_call w.
Proof.
  intros (Hstatus & Hbody & Hsent & Hfin) Hmethod.
  rewrite cors_headers_run, after_cors_world.
  destruct (String.eqb_spec method "OPTIONS") as [E | _]; [contradiction |].
  split; [reflexivity |].
  unfold incoming, count. rewrite res_cors_world, trace_cors_world.
  cbn [statusCode body headersSent finished].
  rewrite filter_app, length_app. cbn.
  repeat split; try assumption. lia.
Qed.

Lemma cors_hands_on_witness :
  fst (cors_headers "POST" reflected) = inr Next /\
  incoming (after_cors "POST" reflected) /\
  count is_provider_call (after_cors "POST" reflected) =
    count is_provider_call reflected.
Proof.
  refine (cors_hands_on "POST" reflected _ _).
  - unfold incoming. cbn. repeat split.
  - discriminate.
Defined.

(** X20: whatever the method, the route and the providers, and
    whichever way the handler ends (answer, rejection, or no callback),
    the response still carries the four CORS headers of the middleware:
    no handler removes or changes them. *)
Theorem serve_keeps_cors (P : providers) (method : string) (r : route)
    (w : world) :
  header "Access-Control-Allow-Origin" (headers (res (snd (serve P method r w)))) =
    Some "*" /\
  header "Access-Control-Allow-Methods" (headers (res (snd (serve P method r w)))) =
    Some "GET, PUT, POST, DELETE, OPTIONS, PATCH, HEAD" /\
  header "Access-Control-Allow-Headers" (headers (res (snd (serve P method r w)))) =
    Some "*" /\
  header "Access-Control-Allow-Credentials" (headers (res (snd (serve P method r w)))) =
    Some "true".
Proof.
  assert (Hkeep : forall k, k <> "Content-Type" -> k <> "Transfer-Encoding" ->
            header k (headers (res (snd (serve P method r w)))) =
            header k (headers (res (after_cors method w)))).
  { intros k Hct Hte. unfold serve. rewrite cors_headers_run.
    destruct (String.eqb method "OPTIONS"); [reflexivity |].
    destruct r as [| req | req].
    - reflexivity.
    - unfold settled.
      pose proof (completion_keeps_headers P req (after_cors method w)) as Hh.
      destruct (post_api_completion P req (after_cors method w)) as [[e | u] w'];
        cbn in *; rewrite Hh; reflexivity.
    - exact (tts_keeps_other_headers P req (after_cors method w) k Hct Hte). }
  rewrite !Hkeep by discriminate.
  exact (after_cors_lookup method w).
Qed.
